(** * Browse endpoint of the Edition routes (src/api/routes/edition.js)

    A shallow embedding of the handler registered by [router.get('/')]:
    the filter predicate [relationshipsFilterMethod] built from the query
    string, and the orchestration that merges the generic relationship
    results with the EditionGroup and Publisher special cases.

    JavaScript strings are modelled by [string].  The case mappings of the
    engine and of lodash are parameters of the predicate
    ([relationshipsFilterMethodWith]); [relationshipsFilterMethod] is the
    predicate on ASCII text, where the mappings are those of the letters A
    to Z.  A thrown exception (or a rejected promise, in the [async]
    handler) is the [Throw] result; its message is the text of V8 for an
    undefined receiver, and only the class of the exception matters. *)

From Stdlib Require Import Bool Ascii String List Arith ZArith Lia.
Import ListNotations.
Open Scope string_scope.
Open Scope bool_scope.

Set Implicit Arguments.

(* ================================================================= *)
(** ** Results of code that can throw *)

Inductive JsError : Type :=
| TypeError (msg : string)
| StorageError (msg : string).

Inductive Res (A : Type) : Type :=
| Ok (a : A)
| Throw (e : JsError).

Arguments Ok {A} a.
Arguments Throw {A} e.

Definition res_bind {A B : Type} (m : Res A) (k : A -> Res B) : Res B :=
  match m with
  | Ok a => k a
  | Throw e => Throw e
  end.

Declare Scope res_scope.
Delimit Scope res_scope with res.
Notation "x <- m ;; k" := (res_bind m (fun x => k))
  (at level 61, m at next level, right associativity) : res_scope.

(* ================================================================= *)
(** ** Strings: the primitives of JavaScript and lodash the route uses *)

Module Js.

Definition isUpperAscii (c : ascii) : bool :=
  (65 <=? nat_of_ascii c)%nat && (nat_of_ascii c <=? 90)%nat.

Definition isLowerAscii (c : ascii) : bool :=
  (97 <=? nat_of_ascii c)%nat && (nat_of_ascii c <=? 122)%nat.

Definition charToLower (c : ascii) : ascii :=
  if isUpperAscii c then ascii_of_nat (nat_of_ascii c + 32) else c.

Definition charToUpper (c : ascii) : ascii :=
  if isLowerAscii c then ascii_of_nat (nat_of_ascii c - 32) else c.

(** [String.prototype.toLowerCase] on ASCII text: the letters A to Z are
    mapped, every other character is left as it is. *)
Fixpoint toLowerCase (s : string) : string :=
  match s with
  | EmptyString => EmptyString
  | String c r => String (charToLower c) (toLowerCase r)
  end.

(** lodash's [toString] on a value that is a string, [null] or
    [undefined]: the two absent values become the empty string. *)
Definition toString (v : option string) : string :=
  match v with
  | Some s => s
  | None => ""
  end.

(** [_.toLower(value)] is [toString(value).toLowerCase()]; here with the
    ASCII mapping. *)
Definition toLower (v : option string) : string :=
  toLowerCase (toString v).

(** [_.upperFirst(string)] on ASCII text: the first character
    upper-cased, the rest as it is. *)
Definition upperFirst (s : string) : string :=
  match s with
  | EmptyString => EmptyString
  | String c r => String (charToUpper c) r
  end.

(** Truthiness of a value that is a string or [undefined]: only a
    non-empty string is truthy. *)
Definition truthy (v : option string) : bool :=
  match v with
  | Some (String _ _) => true
  | _ => false
  end.

(** [Array.prototype.includes] on an array of strings.  The receiver may
    be [null] or [undefined], and then the call throws. *)
Definition includes (arr : option (list string)) (x : string) : Res bool :=
  match arr with
  | Some l => Ok (existsb (String.eqb x) l)
  | None => Throw (TypeError "Cannot read properties of undefined (reading 'includes')")
  end.

End Js.

(* ================================================================= *)
(** ** Data *)

(** The projection returned by [getEditionBasicInfo], with the fields of
    the [EditionDetail] definition.  A field the projector could not fill
    is [None] ([null] or [undefined] in the source). *)
Record EntityProjection : Type := mkProjection {
  ep_bbid : option string;
  defaultAlias : option string;
  depth : option Z;
  disambiguation : option string;
  editionFormat : option string;
  height : option Z;
  languages : option (list string);
  pages : option Z;
  releaseEventDates : option string;
  status : option string;
  weight : option Z;
  width : option Z
}.

(** [req.query] after [formatQueryParameters] and
    [validateBrowseRequestQueryParameters]. *)
Record Query : Type := mkQuery {
  bbid : string;
  modelType : string;
  format : option string;
  language : option string
}.

(* ================================================================= *)
(** ** The filter predicate *)

Section Filter.
Import Js.
Local Open Scope res_scope.

(** [String.prototype.toLowerCase] of the engine and lodash's
    [_.upperFirst]: neither is code of the repository, and both follow the
    Unicode case tables.  The predicate takes them as parameters. *)
Variable lowerCase : string -> string.
Variable upperFirstOf : string -> string.

Variable query : Query.

(** [_.toLower(value)]: lodash's [toString], then the engine's
    [toLowerCase]. *)
Definition toLowerWith (v : option string) : string :=
  lowerCase (toString v).

Definition relationshipsFilterMethodWith (relatedEntity : EntityProjection) : Res bool :=
  if truthy (format query) then
    let editionFormatMatched :=
      String.eqb (toLowerWith (editionFormat relatedEntity)) (toLowerWith (format query)) in
    if truthy (language query) then
      editionLanguageMatched <-
        includes (languages relatedEntity) (upperFirstOf (toLowerWith (language query))) ;;
      Ok (editionFormatMatched && editionLanguageMatched)
    else Ok editionFormatMatched
  else if truthy (language query) then
    editionLanguageMatched <-
      includes (languages relatedEntity) (upperFirstOf (toLowerWith (language query))) ;;
    Ok editionLanguageMatched
  else Ok true.

End Filter.

(** The predicate with the case mappings of ASCII text, on which every
    engine agrees. *)
Definition relationshipsFilterMethod (query : Query) (relatedEntity : EntityProjection)
  : Res bool :=
  relationshipsFilterMethodWith Js.toLowerCase Js.upperFirst query relatedEntity.

(** [Array.prototype.filter] with a callback that can throw: the elements
    are visited from the left and the first exception aborts the call. *)
Fixpoint filterRes {A : Type} (p : A -> Res bool) (l : list A) : Res (list A) :=
  match l with
  | [] => Ok []
  | x :: r =>
      match p x with
      | Throw e => Throw e
      | Ok b =>
          match filterRes p r with
          | Throw e => Throw e
          | Ok r' => Ok (if b then x :: r' else r')
          end
      end
  end.

(* ================================================================= *)
(** ** Browse records and the response *)

Inductive Direction : Type := Forward | Backward.

Record RelationshipEdge : Type := mkEdge {
  typeId : Z;
  typeName : string;
  direction : Direction
}.

(** The [relationship] member of a record: the edge reported by the generic
    helper, or the object literal [{}] the handler writes itself. *)
Inductive Relationship : Type :=
| Edge (e : RelationshipEdge)
| EmptyObject.

Record BrowseRecord : Type := mkRecord {
  entity : EntityProjection;
  relationship : Relationship
}.

(** What [res.status(200).send({bbid, editions})] sends. *)
Record Response : Type := mkResponse {
  statusCode : nat;
  res_bbid : string;
  res_editions : list BrowseRecord
}.

Definition editionBasicRelations : list string :=
  [ "defaultAlias.language";
    "languageSet.languages";
    "disambiguation";
    "editionFormat";
    "editionStatus";
    "releaseEventSet.releaseEvents" ].

(* ================================================================= *)
(** ** The handler's effects: the calls it makes itself, in order

    The call to the helper is one entry; the reads the helper makes inside
    that call are not recorded. *)

Inductive Call : Type :=
| CallGetBrowsedRelationships (browsedEntityType : string)
| CallEditionGroupFetch (bbid : string) (withRelated : list string)
| CallPublisherEditions (bbid : string) (withRelated : list string).

(** A computation of the [async] handler: the reads issued so far and the
    value it resolved to, or the exception that stopped it. *)
Definition M (A : Type) : Type := (list Call * Res A)%type.

Definition m_ret {A : Type} (a : A) : M A := ([], Ok a).

Definition m_bind {A B : Type} (m : M A) (k : A -> M B) : M B :=
  match m with
  | (t, Ok a) => let (t', r) := k a in ((t ++ t')%list, r)
  | (t, Throw e) => (t, Throw e)
  end.

(** [await] on a storage read. *)
Definition m_await {A : Type} (c : Call) (r : Res A) : M A := ([c], r).

(** Synchronous code that can throw. *)
Definition m_lift {A : Type} (r : Res A) : M A := ([], r).

Declare Scope m_scope.
Delimit Scope m_scope with m.
Notation "x <-- m ;; k" := (m_bind m (fun x => k))
  (at level 61, m at next level, right associativity) : m_scope.

Definition trace {A : Type} (m : M A) : list Call := fst m.
Definition outcome {A : Type} (m : M A) : Res A := snd m.

(* ================================================================= *)
(** ** The browse handler *)

Section Browse.
Local Open Scope m_scope.

(** The JSON of an Edition row with [editionBasicRelations] loaded. *)
Variable Edition : Type.

(** [res.locals]: the anchor and its relationships, as the middlewares
    left them. *)
Variable Locals : Type.

(** [editionGroup.toJSON()]; the object literal [{}] has no [editions]. *)
Record EditionGroupJSON : Type := mkEditionGroupJSON {
  editions : option (list Edition)
}.

Definition emptyObject : EditionGroupJSON := mkEditionGroupJSON None.

(** The two reads the handler makes through [req.app.locals.orm]:
    [new EditionGroup({bbid}).fetch({require: false, withRelated})], which
    resolves to [null] when there is no row, and
    [new Publisher({bbid}).editions({withRelated})]. *)
Record Orm : Type := mkOrm {
  editionGroupFetch : string -> list string -> Res (option EditionGroupJSON);
  publisherEditions : string -> list string -> Res (list Edition)
}.

Variable getEditionBasicInfo : Edition -> EntityProjection.

(** [utils.getBrowsedRelationships], a parameter of the handler. *)
Variable getBrowsedRelationships :
  Orm -> Locals -> string -> (Edition -> EntityProjection) -> list string ->
  (EntityProjection -> Res bool) -> Res (list BrowseRecord).

(** [Array.prototype.map] on a receiver that may be [undefined]. *)
Definition arrayMap {A B : Type} (arr : option (list A)) (f : A -> B) : Res (list B) :=
  match arr with
  | Some l => Ok (map f l)
  | None => Throw (TypeError "Cannot read properties of undefined (reading 'map')")
  end.

(** [.forEach(filteredEdition => editionRelationshipList.push(...))] *)
Definition pushAll (editionRelationshipList : list BrowseRecord)
           (filtered : list EntityProjection) : list BrowseRecord :=
  (editionRelationshipList ++
   map (fun filteredEdition => mkRecord filteredEdition EmptyObject) filtered)%list.

Definition editionGroupBranch (orm : Orm) (query : Query)
           (editionRelationshipList : list BrowseRecord) : M (list BrowseRecord) :=
  if String.eqb (modelType query) "EditionGroup" then
    let relationships := map (fun rel => "editions." ++ rel) editionBasicRelations in
    editionGroup <-- m_await (CallEditionGroupFetch (bbid query) relationships)
                             (editionGroupFetch orm (bbid query) relationships) ;;
    let editionGroupJSON :=
      match editionGroup with
      | Some json => json
      | None => emptyObject
      end in
    projected <-- m_lift (arrayMap (editions editionGroupJSON) getEditionBasicInfo) ;;
    filtered <-- m_lift (filterRes (relationshipsFilterMethod query) projected) ;;
    m_ret (pushAll editionRelationshipList filtered)
  else m_ret editionRelationshipList.

Definition publisherBranch (orm : Orm) (query : Query)
           (editionRelationshipList : list BrowseRecord) : M (list BrowseRecord) :=
  if String.eqb (modelType query) "Publisher" then
    editionsJSON <-- m_await (CallPublisherEditions (bbid query) editionBasicRelations)
                             (publisherEditions orm (bbid query) editionBasicRelations) ;;
    filtered <-- m_lift (filterRes (relationshipsFilterMethod query)
                                   (map getEditionBasicInfo editionsJSON)) ;;
    m_ret (pushAll editionRelationshipList filtered)
  else m_ret editionRelationshipList.

(** The last handler of [router.get('/')]. *)
Definition browseEditions (orm : Orm) (locals : Locals) (query : Query) : M Response :=
  editionRelationshipList <--
    m_await (CallGetBrowsedRelationships "Edition")
            (getBrowsedRelationships orm locals "Edition" getEditionBasicInfo
               editionBasicRelations (relationshipsFilterMethod query)) ;;
  afterEditionGroup <-- editionGroupBranch orm query editionRelationshipList ;;
  afterPublisher <-- publisherBranch orm query afterEditionGroup ;;
  m_ret (mkResponse 200 (bbid query) afterPublisher).

(** Where the records a successful run appends after the generic ones
    come from: the rows of the EditionGroup, those of the Publisher, or
    nowhere. *)
Inductive Provenance (orm : Orm) (query : Query) (special : list EntityProjection)
  : Prop :=
| FromEditionGroup (rows : list Edition) :
    modelType query = "EditionGroup" ->
    editionGroupFetch orm (bbid query)
      (map (fun rel => "editions." ++ rel) editionBasicRelations) =
      Ok (Some (mkEditionGroupJSON (Some rows))) ->
    filterRes (relationshipsFilterMethod query) (map getEditionBasicInfo rows) =
      Ok special ->
    Provenance orm query special
| FromPublisher (rows : list Edition) :
    modelType query = "Publisher" ->
    publisherEditions orm (bbid query) editionBasicRelations = Ok rows ->
    filterRes (relationshipsFilterMethod query) (map getEditionBasicInfo rows) =
      Ok special ->
    Provenance orm query special
| FromGenericOnly :
    modelType query <> "EditionGroup" ->
    modelType query <> "Publisher" ->
    special = [] ->
    Provenance orm query special.

End Browse.

Arguments emptyObject {Edition}.
Arguments mkEditionGroupJSON {Edition} editions.

(* ================================================================= *)
(** ** The generic relationship helper *)

Module Utils.
Section GenericResolver.

Variable Edition : Type.
Variable Locals : Type.

(** One relationship of the anchor, seen from the anchor: the kind and
    the raw record of the entity at the other end, and the edge. *)
Record GenericCandidate : Type := mkCandidate {
  otherKind : string;
  other : Edition;
  edge : RelationshipEdge
}.

(** Modelled from the spec: [utils.getBrowsedRelationships]
    (src/api/helpers/utils) is not among the sources.  Sections 4.3 and
    4.6 (steps 3 to 5) give its contract: it walks the relationships of
    the anchor, keeps every edge whose other endpoint is of the browsed
    kind, projects that endpoint, applies the predicate, drops the
    candidates that do not match and reports the others, in order, as
    [{entity, relationship}] with the edge as relationship.  The walk
    over [res.locals] is the parameter [relationshipsOf]. *)
Definition getBrowsedRelationships
           (relationshipsOf : Locals -> list GenericCandidate)
           (orm : Orm Edition) (locals : Locals) (browsedEntityType : string)
           (getEntityInfoMethod : Edition -> EntityProjection)
           (fetchRelated : list string)
           (filterRelationshipMethod : EntityProjection -> Res bool)
  : Res (list BrowseRecord) :=
  let candidates :=
    filter (fun c => String.eqb (otherKind c) browsedEntityType)
           (relationshipsOf locals) in
  filterRes (fun r => filterRelationshipMethod (entity r))
            (map (fun c => mkRecord (getEntityInfoMethod (other c)) (Edge (edge c)))
                 candidates).

End GenericResolver.
End Utils.

(* ================================================================= *)
(** ** The filter as section 4.5 words it *)

Module Spec.
Import Js.
Local Open Scope res_scope.

(** Two characters are equal up to case when they are the same, or one
    is an upper-case letter and the other its lower-case form. *)
Definition charEqIgnoreCase (c d : ascii) : bool :=
  Ascii.eqb c d
  || (isUpperAscii c && Ascii.eqb (charToLower c) d)
  || (isUpperAscii d && Ascii.eqb c (charToLower d)).

Fixpoint caseInsensitiveEq (s t : string) : bool :=
  match s, t with
  | EmptyString, EmptyString => true
  | String c s', String d t' => charEqIgnoreCase c d && caseInsensitiveEq s' t'
  | _, _ => false
  end.

(** The strings made of ASCII characters only. *)
Fixpoint isAscii (s : string) : bool :=
  match s with
  | EmptyString => true
  | String c r => (nat_of_ascii c <? 128)%nat && isAscii r
  end.

(** Membership up to case. *)
Definition containsIgnoreCase (names : list string) (v : string) : Prop :=
  exists name, In name names /\ caseInsensitiveEq name v = true.

Section Predicate.

(** The case mappings the comparison is relative to. *)
Variable lowerCase : string -> string.
Variable upperFirstOf : string -> string.

(** Equality up to case: the two strings have the same lower-case form. *)
Definition equalIgnoringCase (s t : string) : bool :=
  String.eqb (lowerCase s) (lowerCase t).

(** A criterion is supplied when the query carries a non-empty value
    for it. *)
Definition criterion (v : option string) : option string :=
  match v with
  | Some EmptyString => None
  | Some s => Some s
  | None => None
  end.

(** The format name of a projection; a projection without one has the
    empty name. *)
Definition formatName (e : EntityProjection) : string :=
  match editionFormat e with
  | Some name => name
  | None => EmptyString
  end.

Definition formatTest (fmt : string) (e : EntityProjection) : bool :=
  equalIgnoringCase (formatName e) fmt.

(** The supplied language, brought to the storage capitalization, is
    looked up in the language list. *)
Definition languageTest (lang : string) (e : EntityProjection) : Res bool :=
  match languages e with
  | Some names =>
      Ok (existsb (fun name => String.eqb name (upperFirstOf (lowerCase lang))) names)
  | None =>
      Throw (TypeError "Cannot read properties of undefined (reading 'includes')")
  end.

Definition predicate (q : Query) (e : EntityProjection) : Res bool :=
  match criterion (format q), criterion (language q) with
  | Some fmt, Some lang =>
      match languageTest lang e with
      | Ok l => Ok (formatTest fmt e && l)
      | Throw err => Throw err
      end
  | Some fmt, None => Ok (formatTest fmt e)
  | None, Some lang => languageTest lang e
  | None, None => Ok true
  end.

End Predicate.

End Spec.

(** Every character, for case analyses by computation. *)
Definition allAscii : list ascii := map ascii_of_nat (seq 0 256).

(* ================================================================= *)
(** ** Sample data: the scenario of section 8 *)

Module Sample.

Record Row : Type := mkRow {
  row_bbid : string;
  row_format : option string;
  row_languages : list string
}.

Definition project (r : Row) : EntityProjection :=
  mkProjection (Some (row_bbid r)) None None None (row_format r) None
               (Some (row_languages r)) None None None None None.

Definition e1 : Row := mkRow "e1" (Some "Hardcover") ["English"].
Definition e2 : Row := mkRow "e2" (Some "eBook") ["English"].
Definition e3 : Row := mkRow "e3" (Some "eBook") ["French"].
Definition e4 : Row := mkRow "e4" None ["Old English"].

Definition translated : RelationshipEdge := mkEdge 56 "Translation" Forward.

(** [res.locals] is the list of relationships of the anchor. *)
Definition Locals : Type := list (Utils.GenericCandidate Row).

Definition orm (fetched : option (EditionGroupJSON Row)) (published : list Row)
  : Orm Row :=
  mkOrm (fun _ _ => Ok fetched) (fun _ _ => Ok published).

Definition browse (o : Orm Row) (locals : Locals) (q : Query) : M Response :=
  browseEditions project
    (Utils.getBrowsedRelationships (fun l : Locals => l)) o locals q.

(** The EditionGroup eg-1 with its three editions. *)
Definition members : option (EditionGroupJSON Row) :=
  Some (mkEditionGroupJSON (Some [e1; e2; e3])).

Definition edgeTo (r : Row) : Utils.GenericCandidate Row :=
  Utils.mkCandidate "Edition" r translated.

Definition generalRecord (r : Row) : BrowseRecord :=
  mkRecord (project r) (Edge translated).

Definition memberRecord (r : Row) : BrowseRecord :=
  mkRecord (project r) EmptyObject.

Definition fromGroup (fmt lang : option string) : Query :=
  mkQuery "eg-1" "EditionGroup" fmt lang.

End Sample.

(* ================================================================= *)
(** ** A case mapping beyond ASCII, for examples *)

(** Lower-casing that also maps the capital letters of the Latin-1
    supplement (U+00C0 to U+00DE, without the sign U+00D7), on strings
    given by their UTF-8 bytes: such a letter is the byte 195 followed by
    a byte from 128 to 158, and its lower-case form has 32 added to the
    second byte. *)
Module Latin1.

Definition isUpperTail (c : ascii) : bool :=
  (128 <=? nat_of_ascii c)%nat && (nat_of_ascii c <=? 158)%nat
  && negb (nat_of_ascii c =? 151)%nat.

Fixpoint lowerCase (s : string) : string :=
  match s with
  | EmptyString => EmptyString
  | String c1 t =>
      match t with
      | String c2 r =>
          if Ascii.eqb c1 "195" && isUpperTail c2
          then String c1 (String (ascii_of_nat (nat_of_ascii c2 + 32)) (lowerCase r))
          else String (Js.charToLower c1) (lowerCase t)
      | EmptyString => String (Js.charToLower c1) EmptyString
      end
  end.

(** The format names [ÉBOOK] and [ébook]. *)
Definition upperEbook : string := String "195" (String "137" "BOOK").
Definition lowerEbook : string := String "195" (String "169" "book").

End Latin1.

(* ================================================================= *)
(** ** Queries and candidates derived from a query *)

(** The query with its language criterion taken away, and the query with
    its format criterion taken away. *)
Definition formatOnly (q : Query) : Query :=
  mkQuery (bbid q) (modelType q) (format q) None.

Definition languageOnly (q : Query) : Query :=
  mkQuery (bbid q) (modelType q) None (language q).

(** The candidates [filter] keeps: those on which the predicate returns
    [true]. *)
Definition accepts (q : Query) (e : EntityProjection) : bool :=
  match relationshipsFilterMethod q e with
  | Ok b => b
  | Throw _ => false
  end.

(** The exception of [includes] on a missing language list. *)
Definition includesError : JsError :=
  TypeError "Cannot read properties of undefined (reading 'includes')".

(** Rows whose projection has no language list, and a store that fails. *)
Module Faulty.

Definition project (r : Sample.Row) : EntityProjection :=
  mkProjection (Some (Sample.row_bbid r)) None None None (Sample.row_format r) None
               (match Sample.row_languages r with
                | [] => None
                | l => Some l
                end) None None None None None.

Definition e5 : Sample.Row := Sample.mkRow "e5" (Some "Paperback") [].

Definition browse (o : Orm Sample.Row) (locals : Sample.Locals) (q : Query) : M Response :=
  browseEditions project
    (Utils.getBrowsedRelationships (fun l : Sample.Locals => l)) o locals q.

Definition unreachable : JsError := StorageError "connection refused".

Definition downOrm : Orm Sample.Row :=
  mkOrm (fun _ _ => Throw unreachable) (fun _ _ => Throw unreachable).

End Faulty.

(* ================================================================= *)
(** * Properties *)

(** Unfolds the predicate on ASCII text to the body of the source
    function. *)
Ltac unfold_filter :=
  unfold relationshipsFilterMethod, relationshipsFilterMethodWith;
  change (toLowerWith Js.toLowerCase) with Js.toLower.

(** ** Characters and strings *)

Section CaseMapping.
Import Js Spec.

Lemma allAscii_complete (c : ascii) : In c allAscii.
Proof.
  unfold allAscii.
  rewrite <- (ascii_nat_embedding c).
  apply in_map, in_seq.
  pose proof (nat_ascii_bounded c); lia.
Qed.

Lemma forall_ascii (P : ascii -> bool) :
  forallb P allAscii = true -> forall c, P c = true.
Proof.
  intros H c.
  rewrite forallb_forall in H.
  apply H, allAscii_complete.
Qed.

Lemma forall_ascii2 (P : ascii -> ascii -> bool) :
  forallb (fun c => forallb (P c) allAscii) allAscii = true ->
  forall c d, P c d = true.
Proof.
  intros H c d.
  apply (forall_ascii (P c)).
  apply (forall_ascii (fun c => forallb (P c) allAscii) H).
Qed.

Lemma charEqIgnoreCase_lower (c d : ascii) :
  Ascii.eqb (charToLower c) (charToLower d) = charEqIgnoreCase c d.
Proof.
  apply eqb_prop.
  revert c d.
  apply (forall_ascii2
           (fun c d => Bool.eqb (Ascii.eqb (charToLower c) (charToLower d))
                                (charEqIgnoreCase c d))).
  vm_compute; reflexivity.
Qed.

Lemma toLowerCase_eqb (s t : string) :
  String.eqb (toLowerCase s) (toLowerCase t) = caseInsensitiveEq s t.
Proof.
  revert t; induction s as [|c s IH]; intros [|d t]; simpl; try reflexivity.
  rewrite charEqIgnoreCase_lower, IH.
  reflexivity.
Qed.

Lemma caseInsensitiveEq_iff (s t : string) :
  caseInsensitiveEq s t = true <-> toLowerCase s = toLowerCase t.
Proof.
  rewrite <- toLowerCase_eqb. apply String.eqb_eq.
Qed.

Lemma truthy_Some (v : option string) :
  truthy v = true -> exists c s, v = Some (String c s).
Proof. destruct v as [[|c s]|]; simpl; try discriminate; eauto. Qed.

End CaseMapping.

(** ** Filtering with a predicate that can throw *)

Section FilterRes.
Variable A : Type.

Lemma filterRes_ext (p p' : A -> Res bool) (l : list A) :
  (forall x, p x = p' x) -> filterRes p l = filterRes p' l.
Proof.
  intros E; induction l as [|x l IH]; simpl; [reflexivity|].
  now rewrite E, IH.
Qed.

Lemma filterRes_accepted (p : A -> Res bool) (l l' : list A) :
  filterRes p l = Ok l' -> Forall (fun x => In x l /\ p x = Ok true) l'.
Proof.
  revert l'; induction l as [|x l IH]; simpl; intros l' H.
  - inversion H; constructor.
  - destruct (p x) as [b|e] eqn:Px; [|discriminate].
    destruct (filterRes p l) as [r|e] eqn:Fr; [|discriminate].
    inversion H; subst; clear H.
    specialize (IH r eq_refl).
    assert (Forall (fun y => In y (x :: l) /\ p y = Ok true) r) as Hr.
    { eapply Forall_impl; [|exact IH]. simpl; intros y [? ?]; auto. }
    destruct b; [constructor; [simpl; auto | exact Hr] | exact Hr].
Qed.

Lemma filterRes_fixed (p : A -> Res bool) (l : list A) :
  Forall (fun x => p x = Ok true) l -> filterRes p l = Ok l.
Proof.
  induction 1 as [|x l Px _ IH]; simpl; [reflexivity|].
  now rewrite Px, IH.
Qed.

Lemma filterRes_total (p : A -> Res bool) (l : list A) :
  (forall x, In x l -> exists b, p x = Ok b) ->
  filterRes p l = Ok (filter (fun x => match p x with Ok b => b | Throw _ => false end) l).
Proof.
  induction l as [|x l IH]; simpl; intros H; [reflexivity|].
  destruct (H x (or_introl eq_refl)) as [b Hb]; rewrite Hb.
  rewrite IH by (intros y Hy; apply H; now right).
  destruct b; reflexivity.
Qed.

Lemma filterRes_is_filter (p : A -> Res bool) (l l' : list A) :
  filterRes p l = Ok l' ->
  l' = filter (fun x => match p x with Ok b => b | Throw _ => false end) l.
Proof.
  revert l'; induction l as [|x l IH]; simpl; intros l' H.
  - now inversion H.
  - destruct (p x) as [b|e]; [|discriminate].
    destruct (filterRes p l) as [r|e]; [|discriminate].
    inversion H; subst. rewrite <- (IH r eq_refl).
    destruct b; reflexivity.
Qed.

End FilterRes.

(** ** The filter predicate *)

Section FilterFacts.
Import Js Spec.

Lemma filter_total (q : Query) (e : EntityProjection) (names : list string) :
  languages e = Some names -> exists b, relationshipsFilterMethod q e = Ok b.
Proof.
  intros Hn. unfold_filter. rewrite Hn; simpl.
  destruct (truthy (format q)), (truthy (language q)); eauto.
Qed.

Lemma absent_format_mismatch (q : Query) (e : EntityProjection) :
  truthy (format q) = true -> editionFormat e = None ->
  String.eqb (toLower (editionFormat e)) (toLower (format q)) = false.
Proof.
  intros Hf He.
  apply truthy_Some in Hf as (c & s & Hq).
  rewrite He, Hq; reflexivity.
Qed.

Lemma absent_format_not_accepted (q : Query) (e : EntityProjection) :
  truthy (format q) = true -> editionFormat e = None ->
  relationshipsFilterMethod q e <> Ok true.
Proof.
  intros Hf He. unfold_filter.
  rewrite Hf, (absent_format_mismatch q e Hf He).
  destruct (truthy (language q)); [|discriminate].
  destruct (includes _ _); simpl; discriminate.
Qed.

End FilterFacts.

Section FilterClaims.
Import Js Spec.

Lemma predicate_refines (lowerCase upperFirstOf : string -> string)
      (q : Query) (e : EntityProjection) :
  relationshipsFilterMethodWith lowerCase upperFirstOf q e =
  predicate lowerCase upperFirstOf q e.
Proof.
  unfold relationshipsFilterMethodWith, predicate, formatTest, languageTest,
    equalIgnoringCase, formatName, toLowerWith, includes.
  assert (forall x names,
             existsb (String.eqb x) names =
             existsb (fun name => String.eqb name x) names) as Sym.
  { intros x names. induction names as [|name names IH]; simpl; [reflexivity|].
    now rewrite IH, String.eqb_sym. }
  destruct (format q) as [[|cf f]|], (language q) as [[|cl l]|],
    (editionFormat e) as [name|], (languages e) as [names|];
    simpl; rewrite ?Sym; reflexivity.
Qed.

Lemma equalIgnoringCase_ascii (lowerCase : string -> string) (s t : string) :
  (forall u, isAscii u = true -> lowerCase u = toLowerCase u) ->
  isAscii s = true -> isAscii t = true ->
  equalIgnoringCase lowerCase s t = caseInsensitiveEq s t.
Proof.
  intros H Hs Ht. unfold equalIgnoringCase.
  rewrite (H s Hs), (H t Ht). apply toLowerCase_eqb.
Qed.

(** C1.  Whatever the case mappings of the engine, the predicate of the
    browse handler is the one of section 4.5: with a format alone it is
    equality up to case between the format name of the projection and the
    criterion, with a format and a language it is the conjunction of the
    format test and the language test, with neither it accepts every
    candidate.  For an engine that lower-cases ASCII text as ASCII, the
    equality up to case is the letter-wise one on ASCII names, and on every
    list of candidates filtering with format EBOOK and with format ebook
    give the same result. *)
Theorem filter_predicate_shape (lowerCase upperFirstOf : string -> string) :
  (forall s, isAscii s = true -> lowerCase s = toLowerCase s) ->
  (forall q e,
      relationshipsFilterMethodWith lowerCase upperFirstOf q e =
      predicate lowerCase upperFirstOf q e) /\
  (forall s t,
      isAscii s = true -> isAscii t = true ->
      equalIgnoringCase lowerCase s t = caseInsensitiveEq s t) /\
  (forall anchor kind lang candidates,
      filterRes (relationshipsFilterMethodWith lowerCase upperFirstOf
                   (mkQuery anchor kind (Some "EBOOK") lang)) candidates =
      filterRes (relationshipsFilterMethodWith lowerCase upperFirstOf
                   (mkQuery anchor kind (Some "ebook") lang)) candidates).
Proof.
  intros H. split; [|split].
  - intros q e. apply predicate_refines.
  - intros s t Hs Ht. now apply equalIgnoringCase_ascii.
  - intros anchor kind lang candidates.
    apply filterRes_ext; intros e.
    unfold relationshipsFilterMethodWith, toLowerWith; simpl.
    rewrite (H "EBOOK" eq_refl), (H "ebook" eq_refl).
    reflexivity.
Qed.

Lemma filter_predicate_shape_witness :
  (forall s, isAscii s = true -> toLowerCase s = toLowerCase s) /\
  filterRes (relationshipsFilterMethod (mkQuery "eg-1" "EditionGroup" (Some "EBOOK") None))
            (map Sample.project [Sample.e1; Sample.e2; Sample.e3]) =
  filterRes (relationshipsFilterMethod (mkQuery "eg-1" "EditionGroup" (Some "ebook") None))
            (map Sample.project [Sample.e1; Sample.e2; Sample.e3]).
Proof.
  split; [reflexivity|].
  destruct (filter_predicate_shape toLowerCase upperFirst (fun s _ => eq_refl))
    as (_ & _ & H).
  exact (H "eg-1" "EditionGroup" None
           (map Sample.project [Sample.e1; Sample.e2; Sample.e3])).
Defined.

Lemma Latin1_lowerCase_ascii (s : string) :
  isAscii s = true -> Latin1.lowerCase s = toLowerCase s.
Proof.
  induction s as [|c1 t IH]; [reflexivity|].
  intros H. simpl in H. apply andb_true_iff in H as [H1 Ht].
  specialize (IH Ht).
  destruct t as [|c2 r]; [reflexivity|].
  assert (Ascii.eqb c1 "195" = false) as Hc.
  { apply Ascii.eqb_neq. intros ->. discriminate H1. }
  change (Latin1.lowerCase (String c1 (String c2 r)))
    with (if Ascii.eqb c1 "195" && Latin1.isUpperTail c2
          then String c1 (String (ascii_of_nat (nat_of_ascii c2 + 32))
                                 (Latin1.lowerCase r))
          else String (charToLower c1) (Latin1.lowerCase (String c2 r))).
  rewrite Hc, IH. reflexivity.
Qed.

(** With an engine that knows the accented letters, the format [ÉBOOK]
    matches the format name [ébook]; the predicate on ASCII text leaves
    both as they are. *)
Example accented_format_matches :
  relationshipsFilterMethodWith Latin1.lowerCase upperFirst
    (mkQuery "eg-1" "EditionGroup" (Some Latin1.upperEbook) None)
    (mkProjection (Some "e6") None None None (Some Latin1.lowerEbook) None
                  (Some ["French"]) None None None None None) = Ok true.
Proof. reflexivity. Qed.

Lemma charToLower_not_E (c : ascii) : charToLower c <> "E"%char.
Proof.
  intros H.
  assert (negb (Ascii.eqb (charToLower c) "E") = true) as K.
  { clear H. revert c.
    apply (forall_ascii (fun c => negb (Ascii.eqb (charToLower c) "E"))).
    vm_compute; reflexivity. }
  rewrite H in K. discriminate K.
Qed.

Lemma normalized_is_not_Old_English (c : ascii) (r : string) :
  String.eqb (upperFirst (toLower (Some (String c r)))) "Old English" = false.
Proof.
  apply String.eqb_neq. unfold toLower; simpl. intros H.
  injection H as _ H.
  destruct r as [|a0 [|a1 [|a2 [|a3 r]]]]; simpl in H; try discriminate H.
  injection H as _ _ _ H _.
  exact (charToLower_not_E a3 H).
Qed.

(** C6 (a defect of the code).  The claim asks for a membership test up
    to case.  The code lower-cases the supplied value, upper-cases its
    first letter and looks for that very string: a candidate whose language
    is Old English holds a name equal up to case to the value old english,
    and is rejected; it is rejected for the stored name itself, and for
    every non-empty value. *)
Theorem language_test_cannot_match_inner_capital :
  let e := Sample.project Sample.e4 in
  languages e = Some ["Old English"] /\
  containsIgnoreCase ["Old English"] "old english" /\
  relationshipsFilterMethod (mkQuery "w-1" "Work" None (Some "old english")) e = Ok false /\
  relationshipsFilterMethod (mkQuery "w-1" "Work" None (Some "Old English")) e = Ok false /\
  (forall anchor kind c r,
      relationshipsFilterMethod (mkQuery anchor kind None (Some (String c r))) e = Ok false).
Proof.
  intros e. split; [reflexivity|]. split; [|split; [reflexivity|split; [reflexivity|]]].
  - exists "Old English"; split; [now left | reflexivity].
  - intros anchor kind c r.
    change (relationshipsFilterMethod (mkQuery anchor kind None (Some (String c r))) e)
      with (Ok (String.eqb (upperFirst (toLower (Some (String c r)))) "Old English"
                || false)).
    now rewrite normalized_is_not_Old_English.
Qed.

(** C7.  On a projection whose language list is present the predicate
    returns a boolean, whatever criteria the query carries; and filtering a
    list of such projections returns a list. *)
Theorem filter_never_throws
        (q : Query) (e : EntityProjection) (names : list string) :
  languages e = Some names ->
  (exists b, relationshipsFilterMethod q e = Ok b) /\
  (forall candidates,
      Forall (fun x => languages x <> None) candidates ->
      exists kept, filterRes (relationshipsFilterMethod q) candidates = Ok kept).
Proof.
  intros Hn; split.
  - unfold_filter. rewrite Hn; simpl.
    destruct (truthy (format q)), (truthy (language q)); eauto.
  - intros candidates Hwf.
    eexists. apply filterRes_total.
    intros x Hx. rewrite Forall_forall in Hwf.
    destruct (languages x) as [l|] eqn:Hl; [|now elim (Hwf x Hx)].
    exact (filter_total q x Hl).
Qed.

Lemma filter_never_throws_witness :
  languages (Sample.project Sample.e3) = Some ["French"] /\
  exists b,
    relationshipsFilterMethod (mkQuery "eg-1" "EditionGroup" (Some "ebook") (Some "english"))
                              (Sample.project Sample.e3) = Ok b.
Proof.
  split; [reflexivity|].
  apply (filter_never_throws _ (Sample.project Sample.e3) (names := ["French"])).
  reflexivity.
Defined.

(** Without its language list a projection makes the language test
    throw. *)
Example filter_throws_without_languages :
  relationshipsFilterMethod
    (mkQuery "eg-1" "EditionGroup" None (Some "english"))
    (mkProjection (Some "e5") None None None (Some "eBook") None None
                  None None None None None) =
  Throw (TypeError "Cannot read properties of undefined (reading 'includes')").
Proof. reflexivity. Qed.

(** C8.  Filtering twice with the predicate of one query gives what
    filtering once gives. *)
Theorem filtering_idempotent (q : Query) (candidates : list EntityProjection) :
  res_bind (filterRes (relationshipsFilterMethod q) candidates)
           (filterRes (relationshipsFilterMethod q)) =
  filterRes (relationshipsFilterMethod q) candidates.
Proof.
  destruct (filterRes (relationshipsFilterMethod q) candidates) as [kept|e] eqn:H;
    simpl; [|reflexivity].
  apply filterRes_fixed.
  eapply Forall_impl; [|apply (filterRes_accepted _ _ H)].
  simpl; intros x [_ Hx]; exact Hx.
Qed.

(** C10.  With a non-empty format criterion a candidate without a format
    name is never accepted: the predicate answers false on it when its
    language list is present or no language is asked for, and no such
    candidate is left in a filtered list. *)
Theorem absent_format_excluded (q : Query) (e : EntityProjection) :
  truthy (format q) = true ->
  editionFormat e = None ->
  relationshipsFilterMethod q e <> Ok true /\
  (forall names, languages e = Some names -> relationshipsFilterMethod q e = Ok false) /\
  (truthy (language q) = false -> relationshipsFilterMethod q e = Ok false) /\
  (forall candidates kept,
      filterRes (relationshipsFilterMethod q) candidates = Ok kept ->
      Forall (fun x => editionFormat x <> None) kept).
Proof.
  intros Hf He. repeat split.
  - now apply absent_format_not_accepted.
  - intros names Hn.
    destruct (filter_total q e Hn) as [[|] Hb]; [|exact Hb].
    now apply absent_format_not_accepted in Hb.
  - intros Hl. unfold_filter.
    now rewrite Hf, Hl, (absent_format_mismatch q e Hf He).
  - intros candidates kept Hk.
    eapply Forall_impl; [|apply (filterRes_accepted _ _ Hk)].
    simpl; intros x [_ Hx] Hnone.
    exact (absent_format_not_accepted q x Hf Hnone Hx).
Qed.

Lemma absent_format_excluded_witness :
  let q := mkQuery "eg-1" "EditionGroup" (Some "ebook") (Some "english") in
  let e := Sample.project Sample.e4 in
  truthy (format q) = true /\
  editionFormat e = None /\
  relationshipsFilterMethod q e = Ok false.
Proof.
  intros q e.
  split; [reflexivity|]. split; [reflexivity|].
  destruct (absent_format_excluded q e eq_refl eq_refl) as (_ & H & _).
  exact (H ["Old English"] eq_refl).
Defined.

(** The scenario of section 8: of e1, e2, e3 only e2 is an eBook in
    English. *)
Example scenario_ebook_english :
  filterRes (relationshipsFilterMethod
               (mkQuery "eg-1" "EditionGroup" (Some "ebook") (Some "english")))
            (map Sample.project [Sample.e1; Sample.e2; Sample.e3]) =
  Ok [Sample.project Sample.e2].
Proof. reflexivity. Qed.

End FilterClaims.

(** ** The browse handler *)

Section BrowseFacts.

Variable Edition : Type.
Variable Locals : Type.
Variable getEditionBasicInfo : Edition -> EntityProjection.
Variable getBrowsedRelationships :
  Orm Edition -> Locals -> string -> (Edition -> EntityProjection) -> list string ->
  (EntityProjection -> Res bool) -> Res (list BrowseRecord).
Variable orm : Orm Edition.
Variable locals : Locals.
Variable query : Query.

Local Abbreviation handler :=
  (browseEditions getEditionBasicInfo getBrowsedRelationships orm locals query).

Local Abbreviation generic :=
  (getBrowsedRelationships orm locals "Edition" getEditionBasicInfo
     editionBasicRelations (relationshipsFilterMethod query)).

Local Abbreviation withEditions :=
  (map (fun rel => "editions." ++ rel) editionBasicRelations).

Local Abbreviation emptyRecord := (fun x : EntityProjection => mkRecord x EmptyObject).

Local Open Scope res_scope.
Local Open Scope list_scope.

Lemma browse_generic_throws (e : JsError) :
  generic = Throw e ->
  handler = ([CallGetBrowsedRelationships "Edition"], Throw e).
Proof.
  unfold browseEditions; intros ->; reflexivity.
Qed.

Lemma browse_editionGroup (gl : list BrowseRecord) :
  generic = Ok gl ->
  modelType query = "EditionGroup" ->
  handler =
  ([CallGetBrowsedRelationships "Edition"; CallEditionGroupFetch (bbid query) withEditions],
   fetched <- editionGroupFetch orm (bbid query) withEditions ;;
   projected <- arrayMap (editions (match fetched with
                                    | Some json => json
                                    | None => emptyObject
                                    end)) getEditionBasicInfo ;;
   filtered <- filterRes (relationshipsFilterMethod query) projected ;;
   Ok (mkResponse 200 (bbid query) (gl ++ map emptyRecord filtered))).
Proof.
  unfold browseEditions, editionGroupBranch, publisherBranch.
  intros -> ->.
  destruct (editionGroupFetch orm (bbid query) _) as [[[[rows|]]|]|e];
    try reflexivity.
  simpl.
  destruct (filterRes _ _) as [filtered|e]; reflexivity.
Qed.

Lemma browse_publisher (gl : list BrowseRecord) :
  generic = Ok gl ->
  modelType query = "Publisher" ->
  handler =
  ([CallGetBrowsedRelationships "Edition";
    CallPublisherEditions (bbid query) editionBasicRelations],
   editionsJSON <- publisherEditions orm (bbid query) editionBasicRelations ;;
   filtered <- filterRes (relationshipsFilterMethod query)
                         (map getEditionBasicInfo editionsJSON) ;;
   Ok (mkResponse 200 (bbid query) (gl ++ map emptyRecord filtered))).
Proof.
  unfold browseEditions, editionGroupBranch, publisherBranch.
  intros -> ->.
  destruct (publisherEditions orm (bbid query) editionBasicRelations) as [rows|e];
    [|reflexivity].
  simpl.
  destruct (filterRes _ _) as [filtered|e]; reflexivity.
Qed.

Lemma browse_other (gl : list BrowseRecord) :
  generic = Ok gl ->
  modelType query <> "EditionGroup" ->
  modelType query <> "Publisher" ->
  handler = ([CallGetBrowsedRelationships "Edition"],
             Ok (mkResponse 200 (bbid query) gl)).
Proof.
  unfold browseEditions, editionGroupBranch, publisherBranch.
  intros -> H1 H2.
  apply String.eqb_neq in H1, H2.
  simpl. rewrite H1, H2. reflexivity.
Qed.

Lemma browse_success_inv (resp : Response) :
  outcome handler = Ok resp ->
  exists gl special,
    generic = Ok gl /\
    Provenance getEditionBasicInfo orm query special /\
    resp = mkResponse 200 (bbid query) (gl ++ map emptyRecord special).
Proof.
  intros H.
  destruct generic as [gl|e] eqn:G;
    [|rewrite (browse_generic_throws G) in H; discriminate].
  exists gl.
  destruct (String.eqb_spec (modelType query) "EditionGroup") as [EG|NEG].
  - rewrite (browse_editionGroup G EG) in H; unfold outcome, snd in H.
    destruct (editionGroupFetch orm (bbid query) withEditions) as [fetched|e] eqn:F;
      simpl in H; [|discriminate].
    destruct fetched as [[[rows|]]|]; simpl in H; try discriminate.
    destruct (filterRes _ _) as [special|e] eqn:S; simpl in H; [|discriminate].
    exists special; repeat split.
    + eapply FromEditionGroup; eauto.
    + now inversion H.
  - destruct (String.eqb_spec (modelType query) "Publisher") as [PB|NPB].
    + rewrite (browse_publisher G PB) in H; unfold outcome, snd in H.
      destruct (publisherEditions orm (bbid query) editionBasicRelations) as [rows|e] eqn:F;
        simpl in H; [|discriminate].
      destruct (filterRes _ _) as [special|e] eqn:S; simpl in H; [|discriminate].
      exists special; repeat split.
      * eapply FromPublisher; eauto.
      * now inversion H.
    + rewrite (browse_other G NEG NPB) in H; simpl in H.
      exists []; repeat split.
      * now apply FromGenericOnly.
      * rewrite app_nil_r. now inversion H.
Qed.

Lemma browse_success_intro (gl : list BrowseRecord) (special : list EntityProjection) :
  generic = Ok gl ->
  Provenance getEditionBasicInfo orm query special ->
  handler =
  (CallGetBrowsedRelationships "Edition" ::
     (if String.eqb (modelType query) "EditionGroup"
      then [CallEditionGroupFetch (bbid query) withEditions]
      else if String.eqb (modelType query) "Publisher"
           then [CallPublisherEditions (bbid query) editionBasicRelations]
           else []),
   Ok (mkResponse 200 (bbid query) (gl ++ map emptyRecord special))).
Proof.
  intros G [rows EG F S | rows PB F S | NEG NPB ->].
  - rewrite (browse_editionGroup G EG), F, EG; simpl. rewrite S. reflexivity.
  - rewrite (browse_publisher G PB), F, PB; simpl. rewrite S. reflexivity.
  - rewrite (browse_other G NEG NPB).
    apply String.eqb_neq in NEG, NPB. rewrite NEG, NPB, app_nil_r. reflexivity.
Qed.

Lemma no_criteria_accepts (e : EntityProjection) :
  Js.truthy (format query) = false ->
  Js.truthy (language query) = false ->
  relationshipsFilterMethod query e = Ok true.
Proof.
  intros Hf Hl. unfold_filter. now rewrite Hf, Hl.
Qed.

Lemma no_criteria_keeps_all (l : list EntityProjection) :
  Js.truthy (format query) = false ->
  Js.truthy (language query) = false ->
  filterRes (relationshipsFilterMethod query) l = Ok l.
Proof.
  intros Hf Hl. apply filterRes_fixed, Forall_forall.
  intros e _. now apply no_criteria_accepts.
Qed.

Lemma browse_trace_head :
  exists rest, trace handler = CallGetBrowsedRelationships "Edition" :: rest.
Proof.
  destruct generic as [gl|e] eqn:G.
  - destruct (String.eqb_spec (modelType query) "EditionGroup") as [EG|NEG].
    + rewrite (browse_editionGroup G EG); simpl; eauto.
    + destruct (String.eqb_spec (modelType query) "Publisher") as [PB|NPB].
      * rewrite (browse_publisher G PB); simpl; eauto.
      * rewrite (browse_other G NEG NPB); simpl; eauto.
  - rewrite (browse_generic_throws G); simpl; eauto.
Qed.

(** C2.  Resolution is additive.  The generic helper is called first on
    every run; once it has answered, a query whose [modelType] is
    EditionGroup also fetches the EditionGroup with its editions, one whose
    [modelType] is Publisher also reads the editions of the Publisher, and
    any other makes no further read.  The response lists the generic
    records followed by the records of the special case; when no criterion
    filters, an EditionGroup with n editions adds n records to the generic
    ones (3 and 1 give 4). *)
Theorem resolution_is_additive :
  (exists rest, trace handler = CallGetBrowsedRelationships "Edition" :: rest) /\
  (forall gl, generic = Ok gl ->
     (modelType query = "EditionGroup" ->
      trace handler = [CallGetBrowsedRelationships "Edition";
                       CallEditionGroupFetch (bbid query) withEditions]) /\
     (modelType query = "Publisher" ->
      trace handler = [CallGetBrowsedRelationships "Edition";
                       CallPublisherEditions (bbid query) editionBasicRelations]) /\
     (modelType query <> "EditionGroup" -> modelType query <> "Publisher" ->
      trace handler = [CallGetBrowsedRelationships "Edition"])) /\
  (forall gl special,
     generic = Ok gl ->
     Provenance getEditionBasicInfo orm query special ->
     outcome handler =
     Ok (mkResponse 200 (bbid query) (gl ++ map emptyRecord special))) /\
  (forall gl rows,
     generic = Ok gl ->
     modelType query = "EditionGroup" ->
     editionGroupFetch orm (bbid query) withEditions =
       Ok (Some (mkEditionGroupJSON (Some rows))) ->
     Js.truthy (format query) = false ->
     Js.truthy (language query) = false ->
     exists resp,
       outcome handler = Ok resp /\
       length (res_editions resp) = length gl + length rows).
Proof.
  split; [exact browse_trace_head|]. split; [|split].
  - intros gl G. repeat split.
    + intros EG. now rewrite (browse_editionGroup G EG).
    + intros PB. now rewrite (browse_publisher G PB).
    + intros NEG NPB. now rewrite (browse_other G NEG NPB).
  - intros gl special G P. now rewrite (browse_success_intro G P).
  - intros gl rows G EG F Hf Hl.
    assert (Provenance getEditionBasicInfo orm query (map getEditionBasicInfo rows)) as P.
    { eapply FromEditionGroup; eauto. now apply no_criteria_keeps_all. }
    rewrite (browse_success_intro G P).
    eexists; split; [reflexivity|].
    simpl. now rewrite length_app, !length_map.
Qed.

(** C4.  The records of a response are the records of the generic helper,
    as it returned them, followed by those of the special case in the
    order of its rows: the rows the predicate accepts, each of them kept,
    whether or not the generic helper reported the same entity. *)
Theorem records_in_resolver_order (resp : Response) :
  outcome handler = Ok resp ->
  exists gl special,
    generic = Ok gl /\
    Provenance getEditionBasicInfo orm query special /\
    res_editions resp = gl ++ map emptyRecord special /\
    length (res_editions resp) = length gl + length special /\
    (forall rows,
        filterRes (relationshipsFilterMethod query) (map getEditionBasicInfo rows) =
          Ok special ->
        special =
        filter (fun x => match relationshipsFilterMethod query x with
                         | Ok b => b
                         | Throw _ => false
                         end) (map getEditionBasicInfo rows)).
Proof.
  intros H.
  destruct (browse_success_inv H) as (gl & special & G & P & ->).
  exists gl, special; repeat split; auto.
  - simpl. now rewrite length_app, length_map.
  - intros rows S. now apply filterRes_is_filter.
Qed.

(** C5.  A run that succeeds answers with the [bbid] of the query; when
    the generic helper and the special case find nothing, the list of
    records is empty. *)
Theorem anchor_id_passthrough :
  (forall resp, outcome handler = Ok resp ->
                res_bbid resp = bbid query /\ statusCode resp = 200) /\
  (generic = Ok [] ->
   Provenance getEditionBasicInfo orm query [] ->
   outcome handler = Ok (mkResponse 200 (bbid query) [])).
Proof.
  split.
  - intros resp H.
    destruct (browse_success_inv H) as (gl & special & _ & _ & ->).
    split; reflexivity.
  - intros G P. now rewrite (browse_success_intro G P).
Qed.

(** C9.  In the EditionGroup branch, when the fetch resolves to no row
    the handler reads [editions] off the empty object and calls [map] on
    [undefined]: the run ends with a TypeError after the two reads, and no
    response is sent. *)
Theorem editionGroup_missing_row_throws (gl : list BrowseRecord) :
  generic = Ok gl ->
  modelType query = "EditionGroup" ->
  editionGroupFetch orm (bbid query) withEditions = Ok None ->
  handler =
  ([CallGetBrowsedRelationships "Edition";
    CallEditionGroupFetch (bbid query) withEditions],
   Throw (TypeError "Cannot read properties of undefined (reading 'map')")).
Proof.
  intros G EG F.
  rewrite (browse_editionGroup G EG), F.
  reflexivity.
Qed.

End BrowseFacts.

(** ** Provenance and shape of the records *)

Section Uniformity.

Variable Edition : Type.
Variable Locals : Type.
Variable getEditionBasicInfo : Edition -> EntityProjection.
Variable relationshipsOf : Locals -> list (Utils.GenericCandidate Edition).
Variable orm : Orm Edition.
Variable locals : Locals.
Variable query : Query.

Local Open Scope list_scope.

Lemma generic_records (kind : string) (fetchRelated : list string)
      (filterRelationshipMethod : EntityProjection -> Res bool)
      (gl : list BrowseRecord) :
  Utils.getBrowsedRelationships relationshipsOf orm locals kind getEditionBasicInfo
    fetchRelated filterRelationshipMethod = Ok gl ->
  Forall (fun r =>
            (exists c, In c (relationshipsOf locals) /\
                       Utils.otherKind c = kind /\
                       r = mkRecord (getEditionBasicInfo (Utils.other c))
                                    (Edge (Utils.edge c))) /\
            filterRelationshipMethod (entity r) = Ok true) gl.
Proof.
  unfold Utils.getBrowsedRelationships; intros H.
  eapply Forall_impl; [|apply (filterRes_accepted _ _ H)].
  simpl; intros r [Hin Hr]; split; [|exact Hr].
  apply in_map_iff in Hin as (c & <- & Hc).
  apply filter_In in Hc as [Hc Hk].
  apply String.eqb_eq in Hk.
  exists c; auto.
Qed.

Lemma special_records (special : list EntityProjection) :
  Provenance getEditionBasicInfo orm query special ->
  Forall (fun x => (exists row, x = getEditionBasicInfo row) /\
                   relationshipsFilterMethod query x = Ok true) special.
Proof.
  assert (forall rows,
             filterRes (relationshipsFilterMethod query) (map getEditionBasicInfo rows) =
               Ok special ->
             Forall (fun x => (exists row, x = getEditionBasicInfo row) /\
                              relationshipsFilterMethod query x = Ok true) special) as K.
  { intros rows S.
    eapply Forall_impl; [|apply (filterRes_accepted _ _ S)].
    simpl; intros x [Hin Hx]; split; [|exact Hx].
    apply in_map_iff in Hin as (row & <- & _). now exists row. }
  intros [rows _ _ S | rows _ _ S | _ _ ->]; eauto.
Qed.

(** C3.  Every record of a response is a pair of an entity and a
    relationship; its entity is the projection, by the one projector, of a
    raw row, and the one predicate of the query accepted it, whichever of
    the three sources the row came from.  The records of the generic helper
    carry the edge; those of the EditionGroup and Publisher cases carry the
    empty object in its place. *)
Theorem records_uniform (resp : Response) :
  outcome (browseEditions getEditionBasicInfo
             (Utils.getBrowsedRelationships relationshipsOf) orm locals query) = Ok resp ->
  exists gl special,
    res_editions resp = gl ++ special /\
    Forall (fun r => exists c, In c (relationshipsOf locals) /\
                               entity r = getEditionBasicInfo (Utils.other c) /\
                               relationship r = Edge (Utils.edge c)) gl /\
    Forall (fun r => exists row, entity r = getEditionBasicInfo row /\
                                 relationship r = EmptyObject) special /\
    Forall (fun r => relationshipsFilterMethod query (entity r) = Ok true)
           (res_editions resp).
Proof.
  intros H.
  destruct (browse_success_inv _ _ _ _ _ H) as (gl & special & G & P & ->).
  apply generic_records in G. apply special_records in P.
  exists gl, (map (fun x => mkRecord x EmptyObject) special); simpl.
  split; [reflexivity|]. split; [|split].
  - eapply Forall_impl; [|exact G].
    simpl; intros r [(c & Hc & _ & ->) _]; exists c; auto.
  - apply Forall_map. eapply Forall_impl; [|exact P].
    simpl; intros x [(row & ->) _]; exists row; auto.
  - apply Forall_app; split.
    + eapply Forall_impl; [|exact G]. simpl; intros r [_ Hr]; exact Hr.
    + apply Forall_map. eapply Forall_impl; [|exact P].
      simpl; intros x [_ Hx]; exact Hx.
Qed.

End Uniformity.

(** ** The claims on the data of section 8 *)

Section Scenarios.
Import Sample.

Local Abbreviation withEditions :=
  (map (fun rel => "editions." ++ rel) editionBasicRelations).

Lemma resolution_is_additive_witness :
  exists resp,
    outcome (browse (orm members []) [edgeTo e4] (fromGroup None None)) = Ok resp /\
    length (res_editions resp) = 4.
Proof.
  destruct (resolution_is_additive project
              (Utils.getBrowsedRelationships (fun l : Locals => l))
              (orm members []) [edgeTo e4] (fromGroup None None))
    as (_ & _ & _ & H).
  exact (H [generalRecord e4] [e1; e2; e3] eq_refl eq_refl eq_refl eq_refl eq_refl).
Defined.

Lemma records_in_resolver_order_witness :
  let run := browse (orm members []) [edgeTo e2] (fromGroup (Some "EBOOK") None) in
  let resp := mkResponse 200 "eg-1" [generalRecord e2; memberRecord e2; memberRecord e3] in
  outcome run = Ok resp /\
  exists gl special,
    res_editions resp = (gl ++ map (fun x => mkRecord x EmptyObject) special)%list /\
    length (res_editions resp) = length gl + length special.
Proof.
  intros run resp.
  split; [reflexivity|].
  destruct (records_in_resolver_order project
              (Utils.getBrowsedRelationships (fun l : Locals => l))
              (orm members []) [edgeTo e2] (fromGroup (Some "EBOOK") None)
              (resp := resp) eq_refl)
    as (gl & special & _ & _ & E & L & _).
  exists gl, special; split; assumption.
Defined.

Lemma anchor_id_passthrough_witness :
  let q := mkQuery "a-1" "Author" None None in
  outcome (browse (orm None []) [] q) = Ok (mkResponse 200 "a-1" []) /\
  res_bbid (mkResponse 200 "a-1" []) = bbid q.
Proof.
  intros q.
  destruct (anchor_id_passthrough project
              (Utils.getBrowsedRelationships (fun l : Locals => l))
              (orm None []) [] q) as [Hid Hempty].
  assert (outcome (browse (orm None []) [] q) = Ok (mkResponse 200 "a-1" [])) as R.
  { apply Hempty; [reflexivity|].
    apply FromGenericOnly; [discriminate | discriminate | reflexivity]. }
  split; [exact R | exact (proj1 (Hid _ R))].
Defined.

Lemma editionGroup_missing_row_throws_witness :
  browse (orm None []) [edgeTo e4] (fromGroup None None) =
  ([CallGetBrowsedRelationships "Edition"; CallEditionGroupFetch "eg-1" withEditions],
   Throw (TypeError "Cannot read properties of undefined (reading 'map')")).
Proof.
  exact (editionGroup_missing_row_throws project
           (Utils.getBrowsedRelationships (fun l : Locals => l))
           (orm None []) [edgeTo e4] (fromGroup None None)
           (gl := [generalRecord e4]) eq_refl eq_refl eq_refl).
Defined.

Lemma records_uniform_witness :
  let run := browse (orm members []) [edgeTo e2] (fromGroup (Some "ebook") (Some "english")) in
  let resp := mkResponse 200 "eg-1" [generalRecord e2; memberRecord e2] in
  outcome run = Ok resp /\
  Forall (fun r => relationshipsFilterMethod
                     (fromGroup (Some "ebook") (Some "english")) (entity r) = Ok true)
         (res_editions resp).
Proof.
  intros run resp.
  split; [reflexivity|].
  destruct (records_uniform project (fun l : Locals => l)
              (orm members []) [edgeTo e2] (fromGroup (Some "ebook") (Some "english"))
              (resp := resp) eq_refl)
    as (gl & special & _ & _ & _ & H).
  exact H.
Defined.

(** Three members and one edition linked by an edge only: four records,
    the edge on the first and the empty object on the others. *)
Example three_members_one_edge :
  outcome (browse (orm members []) [edgeTo e4] (fromGroup None None)) =
  Ok (mkResponse 200 "eg-1"
        [generalRecord e4; memberRecord e1; memberRecord e2; memberRecord e3]).
Proof. reflexivity. Qed.

(** The query [?edition-group=eg-1&format=ebook&language=english]. *)
Example scenario_browse :
  outcome (browse (orm members []) [] (fromGroup (Some "ebook") (Some "english"))) =
  Ok (mkResponse 200 "eg-1" [memberRecord e2]).
Proof. reflexivity. Qed.

(** The editions of a Publisher are appended the same way. *)
Example publisher_editions :
  browse (orm None [e1; e3]) [edgeTo e2] (mkQuery "p-1" "Publisher" None (Some "French")) =
  ([CallGetBrowsedRelationships "Edition"; CallPublisherEditions "p-1" editionBasicRelations],
   Ok (mkResponse 200 "p-1" [memberRecord e3])).
Proof. reflexivity. Qed.

End Scenarios.

(* ================================================================= *)
(** * Further properties of the predicate *)

Section FilterMore.
Import Js Spec.
Local Open Scope res_scope.

Lemma truthy_toLower (v : option string) :
  truthy v = negb (String.eqb (toLower v) "").
Proof. destruct v as [[|c s]|]; reflexivity. Qed.

Lemma predicate_depends_on_lowered (q1 q2 : Query) (e : EntityProjection) :
  toLower (format q1) = toLower (format q2) ->
  toLower (language q1) = toLower (language q2) ->
  relationshipsFilterMethod q1 e = relationshipsFilterMethod q2 e.
Proof.
  intros Hf Hl. unfold_filter.
  rewrite !truthy_toLower, Hf, Hl. reflexivity.
Qed.

(** X1.  The predicate reads each criterion up to case only, an absent
    criterion counting as the empty one, and reads nothing else of the
    query: two queries whose formats are equal up to case, and whose
    languages are, decide every candidate and filter every list alike. *)
Theorem criteria_up_to_case (q1 q2 : Query) :
  caseInsensitiveEq (toString (format q1)) (toString (format q2)) = true ->
  caseInsensitiveEq (toString (language q1)) (toString (language q2)) = true ->
  (forall e, relationshipsFilterMethod q1 e = relationshipsFilterMethod q2 e) /\
  (forall candidates,
      filterRes (relationshipsFilterMethod q1) candidates =
      filterRes (relationshipsFilterMethod q2) candidates).
Proof.
  intros Hf Hl.
  apply caseInsensitiveEq_iff in Hf, Hl.
  assert (forall e, relationshipsFilterMethod q1 e = relationshipsFilterMethod q2 e) as E
      by (intros e; now apply predicate_depends_on_lowered).
  split; [exact E|].
  intros candidates. now apply filterRes_ext.
Qed.

Lemma criteria_up_to_case_witness :
  let q1 := mkQuery "eg-1" "EditionGroup" (Some "EBook") (Some "") in
  let q2 := mkQuery "p-9" "Publisher" (Some "ebook") None in
  caseInsensitiveEq (toString (format q1)) (toString (format q2)) = true /\
  caseInsensitiveEq (toString (language q1)) (toString (language q2)) = true /\
  filterRes (relationshipsFilterMethod q1)
            (map Sample.project [Sample.e1; Sample.e2; Sample.e3]) =
  filterRes (relationshipsFilterMethod q2)
            (map Sample.project [Sample.e1; Sample.e2; Sample.e3]).
Proof.
  intros q1 q2.
  split; [reflexivity|]. split; [reflexivity|].
  apply (criteria_up_to_case q1 q2); reflexivity.
Defined.

Lemma predicate_splits (q : Query) (e : EntityProjection) :
  relationshipsFilterMethod q e =
  (b <- relationshipsFilterMethod (languageOnly q) e ;;
   Ok (accepts (formatOnly q) e && b)).
Proof.
  unfold accepts; unfold_filter; unfold formatOnly, languageOnly; simpl.
  destruct (truthy (format q)), (truthy (language q)); simpl;
    try destruct (includes _ _); simpl; rewrite ?andb_true_r; reflexivity.
Qed.

Lemma formatOnly_pure (q : Query) (e : EntityProjection) :
  relationshipsFilterMethod (formatOnly q) e = Ok (accepts (formatOnly q) e).
Proof.
  unfold accepts; unfold_filter; unfold formatOnly; simpl.
  destruct (truthy (format q)); reflexivity.
Qed.

Lemma accepts_splits (q : Query) (e : EntityProjection) :
  accepts q e = accepts (formatOnly q) e && accepts (languageOnly q) e.
Proof.
  unfold accepts at 1. rewrite predicate_splits.
  unfold accepts at 3.
  destruct (relationshipsFilterMethod (languageOnly q) e); simpl;
    [reflexivity | now rewrite andb_false_r].
Qed.

Lemma filterRes_and (A : Type) (p p1 : A -> Res bool) (p2 : A -> bool) (l : list A) :
  (forall x, p x = (b <- p1 x ;; Ok (p2 x && b))) ->
  filterRes p l = (kept <- filterRes p1 l ;; filterRes (fun x => Ok (p2 x)) kept).
Proof.
  intros E; induction l as [|x l IH]; simpl; [reflexivity|].
  rewrite E, IH.
  destruct (p1 x) as [b|e]; simpl; [|reflexivity].
  destruct (filterRes p1 l) as [kept|e]; simpl; [|reflexivity].
  destruct b; simpl; [rewrite andb_true_r | rewrite andb_false_r].
  - reflexivity.
  - destruct (filterRes _ kept); reflexivity.
Qed.

(** X2.  Filtering with a query is filtering with its language criterion
    alone and then, on what is kept, with its format criterion alone; the
    two sides throw on the same lists. *)
Theorem criteria_compose (q : Query) (candidates : list EntityProjection) :
  filterRes (relationshipsFilterMethod q) candidates =
  (kept <- filterRes (relationshipsFilterMethod (languageOnly q)) candidates ;;
   filterRes (relationshipsFilterMethod (formatOnly q)) kept).
Proof.
  rewrite (filterRes_and (relationshipsFilterMethod q)
             (relationshipsFilterMethod (languageOnly q))
             (accepts (formatOnly q)) candidates (predicate_splits q)).
  destruct (filterRes (relationshipsFilterMethod (languageOnly q)) candidates)
    as [kept|e]; simpl; [|reflexivity].
  apply filterRes_ext; intros x. now rewrite formatOnly_pure.
Qed.

Lemma filter_filter_and (A : Type) (f g : A -> bool) (l : list A) :
  filter f (filter g l) = filter (fun x => g x && f x) l.
Proof.
  induction l as [|x l IH]; simpl; [reflexivity|].
  destruct (g x); simpl; [destruct (f x)|]; now rewrite IH.
Qed.

Lemma filterRes_well_formed (q : Query) (l : list EntityProjection) :
  Forall (fun x => languages x <> None) l ->
  filterRes (relationshipsFilterMethod q) l = Ok (filter (accepts q) l).
Proof.
  intros Hwf. unfold accepts. apply filterRes_total.
  intros x Hx. rewrite Forall_forall in Hwf.
  destruct (languages x) as [names|] eqn:Hl; [|now elim (Hwf x Hx)].
  exact (filter_total q x Hl).
Qed.

Lemma well_formed_filter (f : EntityProjection -> bool) (l : list EntityProjection) :
  Forall (fun x => languages x <> None) l ->
  Forall (fun x => languages x <> None) (filter f l).
Proof.
  rewrite !Forall_forall. intros H x Hx.
  apply filter_In in Hx as [Hx _]. now apply H.
Qed.

(** X3.  On candidates that all have a language list the two criteria
    commute: filtering by format and then by language gives the list that
    filtering with the whole query gives, the accepted candidates in their
    order. *)
Theorem criteria_commute (q : Query) (candidates : list EntityProjection) :
  Forall (fun x => languages x <> None) candidates ->
  (kept <- filterRes (relationshipsFilterMethod (formatOnly q)) candidates ;;
   filterRes (relationshipsFilterMethod (languageOnly q)) kept) =
  filterRes (relationshipsFilterMethod q) candidates /\
  filterRes (relationshipsFilterMethod q) candidates =
  Ok (filter (accepts q) candidates).
Proof.
  intros Hwf. split; [|now apply filterRes_well_formed].
  rewrite (filterRes_well_formed (formatOnly q) Hwf); simpl.
  rewrite (filterRes_well_formed (languageOnly q)
             (well_formed_filter (accepts (formatOnly q)) Hwf)).
  rewrite (filterRes_well_formed q Hwf), filter_filter_and.
  f_equal. apply filter_ext; intros x. symmetry; apply accepts_splits.
Qed.

Lemma criteria_commute_witness :
  let q := Sample.fromGroup (Some "ebook") (Some "english") in
  let candidates := map Sample.project [Sample.e1; Sample.e2; Sample.e3] in
  Forall (fun x => languages x <> None) candidates /\
  (kept <- filterRes (relationshipsFilterMethod (formatOnly q)) candidates ;;
   filterRes (relationshipsFilterMethod (languageOnly q)) kept) =
  Ok [Sample.project Sample.e2].
Proof.
  intros q candidates.
  assert (Forall (fun x => languages x <> None) candidates) as Hwf
      by (repeat constructor; discriminate).
  split; [exact Hwf|].
  destruct (criteria_commute q Hwf) as [H1 H2].
  rewrite H1, H2. reflexivity.
Defined.

(** Without the language lists the order matters: the format criterion
    first hides from the language test the candidate it would throw on. *)
Example format_first_hides_the_throw :
  let q := Sample.fromGroup (Some "ebook") (Some "english") in
  let candidates := map Faulty.project [Sample.e2; Faulty.e5] in
  (kept <- filterRes (relationshipsFilterMethod (formatOnly q)) candidates ;;
   filterRes (relationshipsFilterMethod (languageOnly q)) kept) =
  Ok [Faulty.project Sample.e2] /\
  filterRes (relationshipsFilterMethod q) candidates = Throw includesError.
Proof. split; reflexivity. Qed.

End FilterMore.

(** ** When the predicate throws *)

Section FilterThrows.
Import Js.

Lemma predicate_throw_inv (q : Query) (e : EntityProjection) (err : JsError) :
  relationshipsFilterMethod q e = Throw err ->
  truthy (language q) = true /\ languages e = None /\ err = includesError.
Proof.
  unfold_filter; unfold includes.
  destruct (truthy (format q)), (truthy (language q)), (languages e);
    simpl; intros H; try discriminate; inversion H; auto.
Qed.

Lemma predicate_throws (q : Query) (e : EntityProjection) :
  truthy (language q) = true -> languages e = None ->
  relationshipsFilterMethod q e = Throw includesError.
Proof.
  intros Hl He. unfold_filter; unfold includes.
  rewrite Hl, He. destruct (truthy (format q)); reflexivity.
Qed.

Lemma filterRes_throw_inv (A : Type) (p : A -> Res bool) (l : list A) (err : JsError) :
  filterRes p l = Throw err -> exists x, In x l /\ p x = Throw err.
Proof.
  induction l as [|x l IH]; simpl; [discriminate|].
  destruct (p x) as [b|e] eqn:Px.
  - destruct (filterRes p l) as [kept|e]; [discriminate|].
    intros H; inversion H; subst.
    destruct (IH eq_refl) as (y & Hy & Py). exists y; auto.
  - intros H; inversion H; subst. exists x; auto.
Qed.

Lemma filterRes_throws (A : Type) (p : A -> Res bool) (l : list A) (x : A) (err : JsError) :
  In x l -> p x = Throw err -> exists err', filterRes p l = Throw err'.
Proof.
  induction l as [|y l IH]; simpl; [tauto|].
  intros [->|Hin] Px.
  - rewrite Px; eauto.
  - destruct (p y) as [b|e]; [|eauto].
    destruct (IH Hin Px) as [err' ->]; eauto.
Qed.

Lemma filter_throws_includesError (q : Query) (l : list EntityProjection) :
  Js.truthy (language q) = true ->
  (exists x, In x l /\ languages x = None) ->
  filterRes (relationshipsFilterMethod q) l = Throw includesError.
Proof.
  intros Hl (x & Hx & Hnone).
  destruct (filterRes_throws _ l x Hx (predicate_throws q x Hl Hnone)) as [err H].
  rewrite H. f_equal.
  apply filterRes_throw_inv in H as (y & _ & Py).
  now apply predicate_throw_inv in Py.
Qed.

(** X4.  The predicate throws exactly when a language is asked for and
    the candidate has no language list, and then it is the TypeError of
    [includes]; a format criterion alone never throws.  Filtering a list
    throws exactly when a language is asked for and one of the candidates
    has no language list. *)
Theorem filter_throws_exactly (q : Query) :
  (forall e err,
      relationshipsFilterMethod q e = Throw err <->
      truthy (language q) = true /\ languages e = None /\ err = includesError) /\
  (forall candidates,
      (exists err, filterRes (relationshipsFilterMethod q) candidates = Throw err) <->
      truthy (language q) = true /\ exists x, In x candidates /\ languages x = None).
Proof.
  split.
  - intros e err; split.
    + apply predicate_throw_inv.
    + intros (Hl & He & ->). now apply predicate_throws.
  - intros candidates; split.
    + intros [err H].
      apply filterRes_throw_inv in H as (x & Hx & Px).
      apply predicate_throw_inv in Px as (Hl & He & _).
      split; [exact Hl | exists x; auto].
    + intros [Hl Hex]. exists includesError.
      now apply filter_throws_includesError.
Qed.

Lemma filter_throws_exactly_witness :
  let q := Sample.fromGroup (Some "paperback") (Some "english") in
  relationshipsFilterMethod q (Faulty.project Faulty.e5) = Throw includesError /\
  exists err,
    filterRes (relationshipsFilterMethod q)
              (map Faulty.project [Sample.e1; Faulty.e5]) = Throw err.
Proof.
  intros q.
  destruct (filter_throws_exactly q) as [H1 H2].
  split.
  - apply H1. repeat split; reflexivity.
  - apply H2. split; [reflexivity|].
    exists (Faulty.project Faulty.e5); split; [right; left|]; reflexivity.
Defined.

End FilterThrows.

(* ================================================================= *)
(** * Further properties of the handler *)

Section BrowseMore.

Variable Edition : Type.
Variable Locals : Type.
Variable getEditionBasicInfo : Edition -> EntityProjection.
Variable getBrowsedRelationships :
  Orm Edition -> Locals -> string -> (Edition -> EntityProjection) -> list string ->
  (EntityProjection -> Res bool) -> Res (list BrowseRecord).
Variable orm : Orm Edition.
Variable locals : Locals.
Variable query : Query.

Local Abbreviation handler :=
  (browseEditions getEditionBasicInfo getBrowsedRelationships orm locals query).

Local Abbreviation generic :=
  (getBrowsedRelationships orm locals "Edition" getEditionBasicInfo
     editionBasicRelations (relationshipsFilterMethod query)).

Local Abbreviation withEditions :=
  (map (fun rel => "editions." ++ rel) editionBasicRelations).

Local Abbreviation emptyRecord := (fun x : EntityProjection => mkRecord x EmptyObject).

Local Abbreviation genericRead := (CallGetBrowsedRelationships "Edition").
Local Abbreviation groupRead := (CallEditionGroupFetch (bbid query) withEditions).
Local Abbreviation publisherRead :=
  (CallPublisherEditions (bbid query) editionBasicRelations).

Local Open Scope list_scope.

Lemma browse_trace :
  trace handler =
  genericRead ::
    match generic with
    | Throw _ => []
    | Ok _ =>
        if String.eqb (modelType query) "EditionGroup" then [groupRead]
        else if String.eqb (modelType query) "Publisher" then [publisherRead]
             else []
    end.
Proof.
  destruct generic as [gl|e] eqn:G.
  - destruct (String.eqb_spec (modelType query) "EditionGroup") as [EG|NEG].
    + now rewrite (browse_editionGroup _ _ _ _ _ G EG).
    + destruct (String.eqb_spec (modelType query) "Publisher") as [PB|NPB].
      * now rewrite (browse_publisher _ _ _ _ _ G PB).
      * now rewrite (browse_other _ _ _ _ _ G NEG NPB).
  - now rewrite (browse_generic_throws _ _ _ _ _ G).
Qed.

(** X5.  A failure of a read is the failure of the run: the exception of
    the generic helper, of the EditionGroup fetch or of the Publisher read
    comes out unchanged, no response is sent, and no read follows the one
    that failed. *)
Theorem storage_errors_propagate :
  (forall err, generic = Throw err -> handler = ([genericRead], Throw err)) /\
  (forall gl err,
      generic = Ok gl ->
      modelType query = "EditionGroup" ->
      editionGroupFetch orm (bbid query) withEditions = Throw err ->
      handler = ([genericRead; groupRead], Throw err)) /\
  (forall gl err,
      generic = Ok gl ->
      modelType query = "Publisher" ->
      publisherEditions orm (bbid query) editionBasicRelations = Throw err ->
      handler = ([genericRead; publisherRead], Throw err)).
Proof.
  split; [|split].
  - intros err G. exact (browse_generic_throws _ _ _ _ _ G).
  - intros gl err G EG F.
    rewrite (browse_editionGroup _ _ _ _ _ G EG), F. reflexivity.
  - intros gl err G PB F.
    rewrite (browse_publisher _ _ _ _ _ G PB), F. reflexivity.
Qed.

(** X6.  The handler's own calls follow [modelType].  Every run starts
    with the call to the helper (what the helper reads inside that call is
    not part of the trace); after it the handler itself makes at most one
    read: the EditionGroup fetch, only for a query whose [modelType] is
    EditionGroup, or the read of the editions of a Publisher, only for one
    whose [modelType] is Publisher, with the [bbid] of the query, and never
    both. *)
Theorem own_reads_follow_model_type :
  (trace handler = [genericRead] \/
   (modelType query = "EditionGroup" /\ trace handler = [genericRead; groupRead]) \/
   (modelType query = "Publisher" /\ trace handler = [genericRead; publisherRead])) /\
  (forall b r, In (CallEditionGroupFetch b r) (trace handler) ->
               modelType query = "EditionGroup" /\ b = bbid query /\ r = withEditions) /\
  (forall b r, In (CallPublisherEditions b r) (trace handler) ->
               modelType query = "Publisher" /\ b = bbid query /\
               r = editionBasicRelations) /\
  ~ ((exists b r, In (CallEditionGroupFetch b r) (trace handler)) /\
     (exists b r, In (CallPublisherEditions b r) (trace handler))).
Proof.
  rewrite browse_trace.
  destruct generic as [gl|e];
    [destruct (String.eqb_spec (modelType query) "EditionGroup") as [EG|NEG];
     [|destruct (String.eqb_spec (modelType query) "Publisher") as [PB|NPB]]|];
    (split; [auto|]); (split; [|split]);
    try (intros b r [H|[H|[]]]; try discriminate H; inversion H; auto);
    try (intros b r [H|[]]; discriminate H);
    intros [(b & r & H) (b' & r' & H')]; simpl in H, H';
    repeat match goal with
           | K : _ \/ _ |- _ => destruct K as [K|K]
           | K : False |- _ => destruct K
           | K : _ = _ |- _ => discriminate K
           end.
Qed.

(** X7.  With the generic records at hand and every row of the special
    case projected to a candidate that has a language list, the run
    succeeds: it answers 200 with the generic records followed by the
    accepted rows, in the order of the rows. *)
Theorem browse_succeeds_on_well_formed
        (gl : list BrowseRecord) (rows : list Edition) :
  generic = Ok gl ->
  Forall (fun row => languages (getEditionBasicInfo row) <> None) rows ->
  (modelType query = "EditionGroup" ->
   editionGroupFetch orm (bbid query) withEditions =
     Ok (Some (mkEditionGroupJSON (Some rows))) ->
   handler =
   ([genericRead; groupRead],
    Ok (mkResponse 200 (bbid query)
          (gl ++ map emptyRecord
                   (filter (accepts query) (map getEditionBasicInfo rows)))))) /\
  (modelType query = "Publisher" ->
   publisherEditions orm (bbid query) editionBasicRelations = Ok rows ->
   handler =
   ([genericRead; publisherRead],
    Ok (mkResponse 200 (bbid query)
          (gl ++ map emptyRecord
                   (filter (accepts query) (map getEditionBasicInfo rows)))))).
Proof.
  intros G Hwf.
  assert (filterRes (relationshipsFilterMethod query) (map getEditionBasicInfo rows) =
          Ok (filter (accepts query) (map getEditionBasicInfo rows))) as S.
  { apply filterRes_well_formed. now apply Forall_map. }
  split.
  - intros EG F.
    rewrite (browse_editionGroup _ _ _ _ _ G EG), F; simpl.
    now rewrite S.
  - intros PB F.
    rewrite (browse_publisher _ _ _ _ _ G PB), F; simpl.
    now rewrite S.
Qed.

(** X8.  No partial answer: when a language is asked for and a row of
    the special case projects to a candidate without a language list, the
    run ends with the TypeError of [includes] after the two reads, and the
    generic records already collected are not sent. *)
Theorem no_partial_response (gl : list BrowseRecord) (rows : list Edition) :
  generic = Ok gl ->
  Js.truthy (language query) = true ->
  (exists row, In row rows /\ languages (getEditionBasicInfo row) = None) ->
  (modelType query = "EditionGroup" ->
   editionGroupFetch orm (bbid query) withEditions =
     Ok (Some (mkEditionGroupJSON (Some rows))) ->
   handler = ([genericRead; groupRead], Throw includesError)) /\
  (modelType query = "Publisher" ->
   publisherEditions orm (bbid query) editionBasicRelations = Ok rows ->
   handler = ([genericRead; publisherRead], Throw includesError)).
Proof.
  intros G Hl (row & Hin & Hnone).
  assert (filterRes (relationshipsFilterMethod query) (map getEditionBasicInfo rows) =
          Throw includesError) as S.
  { apply filter_throws_includesError; [exact Hl|].
    exists (getEditionBasicInfo row); split; [now apply in_map | exact Hnone]. }
  split.
  - intros EG F.
    rewrite (browse_editionGroup _ _ _ _ _ G EG), F; simpl.
    now rewrite S.
  - intros PB F.
    rewrite (browse_publisher _ _ _ _ _ G PB), F; simpl.
    now rewrite S.
Qed.

End BrowseMore.

(** ** The further properties on sample data *)

Section MoreScenarios.
Import Sample.

Local Abbreviation withEditions :=
  (map (fun rel => "editions." ++ rel) editionBasicRelations).

Lemma storage_errors_propagate_witness :
  Faulty.browse Faulty.downOrm [edgeTo e2] (mkQuery "p-1" "Publisher" None None) =
  ([CallGetBrowsedRelationships "Edition";
    CallPublisherEditions "p-1" editionBasicRelations],
   Throw Faulty.unreachable).
Proof.
  destruct (storage_errors_propagate Faulty.project
              (Utils.getBrowsedRelationships (fun l : Locals => l))
              Faulty.downOrm [edgeTo e2] (mkQuery "p-1" "Publisher" None None))
    as (_ & _ & H).
  exact (H [mkRecord (Faulty.project e2) (Edge translated)] Faulty.unreachable
           eq_refl eq_refl eq_refl).
Defined.

Lemma own_reads_follow_model_type_witness :
  let run := browse (orm members [e1]) [edgeTo e4] (fromGroup None None) in
  trace run = [CallGetBrowsedRelationships "Edition";
               CallEditionGroupFetch "eg-1" withEditions] /\
  ~ (exists b r, In (CallPublisherEditions b r) (trace run)).
Proof.
  intros run.
  destruct (own_reads_follow_model_type project
              (Utils.getBrowsedRelationships (fun l : Locals => l))
              (orm members [e1]) [edgeTo e4] (fromGroup None None))
    as (_ & _ & _ & Hnot).
  split; [reflexivity|].
  intros Hp. apply Hnot. split; [|exact Hp].
  exists "eg-1", withEditions. right; left; reflexivity.
Defined.

Lemma browse_succeeds_on_well_formed_witness :
  let q := mkQuery "p-1" "Publisher" (Some "EBOOK") None in
  Forall (fun row => languages (project row) <> None) [e1; e2; e3] /\
  browse (orm None [e1; e2; e3]) [edgeTo e2] q =
  ([CallGetBrowsedRelationships "Edition";
    CallPublisherEditions "p-1" editionBasicRelations],
   Ok (mkResponse 200 "p-1" [generalRecord e2; memberRecord e2; memberRecord e3])).
Proof.
  intros q.
  assert (Forall (fun row => languages (project row) <> None) [e1; e2; e3]) as Hwf
      by (repeat constructor; discriminate).
  split; [exact Hwf|].
  destruct (browse_succeeds_on_well_formed project
              (Utils.getBrowsedRelationships (fun l : Locals => l))
              (orm None [e1; e2; e3]) [edgeTo e2] q
              (gl := [generalRecord e2]) eq_refl Hwf) as [_ H].
  exact (H eq_refl eq_refl).
Defined.

Lemma no_partial_response_witness :
  let q := fromGroup None (Some "english") in
  let group := Some (mkEditionGroupJSON (Some [e2; Faulty.e5])) in
  Faulty.browse (orm group []) [edgeTo e2] q =
  ([CallGetBrowsedRelationships "Edition";
    CallEditionGroupFetch "eg-1" withEditions],
   Throw includesError).
Proof.
  intros q group.
  assert (exists row, In row [e2; Faulty.e5] /\ languages (Faulty.project row) = None)
    as Hex by (exists Faulty.e5; split; [right; left|]; reflexivity).
  destruct (no_partial_response Faulty.project
              (Utils.getBrowsedRelationships (fun l : Locals => l))
              (orm group []) [edgeTo e2] q
              (gl := [mkRecord (Faulty.project e2) (Edge translated)])
              [e2; Faulty.e5] eq_refl eq_refl Hex) as [H _].
  exact (H eq_refl eq_refl).
Defined.

End MoreScenarios.
